(** * A shallow embedding of the NES 6502 CPU core of [src/emulator/cpu.ts]

    The model follows the first [CPU] class of [cpu.ts] (the one with the
    private [load], [reset] and [run] methods called by [interpret]).

    JavaScript numbers are modelled as [Z].  A register can also receive
    [undefined] (an out-of-range read of the [Uint8Array]) and from there
    [NaN] ([undefined + 1]); the operations used by the CPU treat both the
    same way ([=== 0] is false, bitwise operators see [0], arithmetic gives
    [NaN]), so both are represented by [None] in [jsnum]. *)

From Stdlib Require Import ZArith Bool List String Lia.
Import ListNotations.
Open Scope Z_scope.

(** ** JavaScript number operations *)

Definition jsnum := option Z.

(** [ToInt32] on an integer: reduce modulo 2^32 into the signed range. *)
Definition int32_wrap (z : Z) : Z :=
  let m := z mod 2 ^ 32 in
  if m <? 2 ^ 31 then m else m - 2 ^ 32.

(** [ToInt32] on a JS value: [undefined] and [NaN] become [0]. *)
Definition toInt32 (v : jsnum) : Z :=
  match v with
  | Some z => int32_wrap z
  | None => 0
  end.

(** [ToUint8], used when a number is stored in a [Uint8Array]. *)
Definition toUint8 (z : Z) : Z := z mod 256.

(** [a + b]: [NaN] as soon as one side is [undefined] or [NaN]. *)
Definition js_add (a b : jsnum) : jsnum :=
  match a, b with
  | Some x, Some y => Some (x + y)
  | _, _ => None
  end.

(** [a % m] for a constant positive [m]: truncated remainder, [NaN % m = NaN]. *)
Definition js_rem (a : jsnum) (m : Z) : jsnum :=
  match a with
  | Some x => Some (Z.rem x m)
  | None => None
  end.

Definition js_and (a b : jsnum) : Z := Z.land (toInt32 a) (toInt32 b).
Definition js_or (a b : jsnum) : Z := Z.lor (toInt32 a) (toInt32 b).
Definition js_shl (a : jsnum) (n : Z) : Z :=
  int32_wrap (Z.shiftl (toInt32 a) (Z.land n 31)).
Definition js_shr (a : jsnum) (n : Z) : Z :=
  Z.shiftr (toInt32 a) (Z.land n 31).

(** [a === 0] *)
Definition js_eq0 (a : jsnum) : bool :=
  match a with
  | Some z => Z.eqb z 0
  | None => false
  end.

(** ** The data model *)

(** [AddressingMode] *)
Inductive AddressingMode :=
| Immediate
| ZeroPage
| ZeroPage_X
| ZeroPage_Y
| Absolute
| Absolute_X
| Absolute_Y
| Indirect_X
| Indirect_Y.

(** [Instruction] *)
Definition BRK : Z := 0x00.
Definition LDA_Immediate : Z := 0xA9.
Definition INX : Z := 0xE8.
Definition TAX : Z := 0xAA.

(** [memory = new Uint8Array(0xFFFF)]: the array length. *)
Definition memory_length : Z := 0xFFFF.

Record CPU := mkCPU {
  register_acc : jsnum;
  register_x : jsnum;
  register_y : jsnum;
  status : Z;
  program_counter : Z;
  memory : Z -> Z
}.

(** [new CPU()] *)
Definition new_CPU : CPU :=
  {| register_acc := Some 0; register_x := Some 0; register_y := Some 0;
     status := 0; program_counter := 0; memory := fun _ => 0 |}.

Definition set_acc (st : CPU) (v : jsnum) : CPU :=
  {| register_acc := v; register_x := register_x st; register_y := register_y st;
     status := status st; program_counter := program_counter st; memory := memory st |}.
Definition set_x (st : CPU) (v : jsnum) : CPU :=
  {| register_acc := register_acc st; register_x := v; register_y := register_y st;
     status := status st; program_counter := program_counter st; memory := memory st |}.
Definition set_status (st : CPU) (s : Z) : CPU :=
  {| register_acc := register_acc st; register_x := register_x st;
     register_y := register_y st; status := s;
     program_counter := program_counter st; memory := memory st |}.
Definition set_pc (st : CPU) (pc : Z) : CPU :=
  {| register_acc := register_acc st; register_x := register_x st;
     register_y := register_y st; status := status st;
     program_counter := pc; memory := memory st |}.
Definition set_memory (st : CPU) (m : Z -> Z) : CPU :=
  {| register_acc := register_acc st; register_x := register_x st;
     register_y := register_y st; status := status st;
     program_counter := program_counter st; memory := m |}.

(** Point update of the memory contents. *)
Definition upd (m : Z -> Z) (a v : Z) : Z -> Z :=
  fun b => if Z.eqb b a then v else m b.

(** ** Memory access *)

(** [memoryRead(address)]: [this.memory[address]], [undefined] outside the array. *)
Definition memoryRead (st : CPU) (address : Z) : jsnum :=
  if (0 <=? address) && (address <? memory_length)
  then Some (memory st address) else None.

(** [this.memory[address]] for an address that may be [NaN]. *)
Definition memoryRead_js (st : CPU) (address : jsnum) : jsnum :=
  match address with
  | Some a => memoryRead st a
  | None => None
  end.

(** [memoryReadUint16(address)]: [(hi << 8) | lo]. *)
Definition memoryReadUint16 (st : CPU) (address : Z) : Z :=
  let lo := memoryRead st address in
  let hi := memoryRead st (address + 1) in
  js_or (Some (js_shl hi 8)) lo.

(** [memoryWrite(address, data)]: a typed array stores [ToUint8(data)] at an
    index inside the array and ignores a write outside it. *)
Definition memoryWrite (st : CPU) (address data : Z) : CPU :=
  if (0 <=? address) && (address <? memory_length)
  then set_memory st (upd (memory st) address (toUint8 data))
  else st.

(** [memoryWriteUint16(address, data)]: little-endian. *)
Definition memoryWriteUint16 (st : CPU) (address data : Z) : CPU :=
  let hi := js_shr (Some data) 8 in
  let lo := js_and (Some data) (Some 0xFF) in
  let st1 := memoryWrite st address lo in
  memoryWrite st1 (address + 1) hi.

(** ** Wrap-around helpers *)

(** [wrapAroundUint8(num) = num % 0xFF] *)
Definition wrapAroundUint8 (num : jsnum) : jsnum := js_rem num 0xFF.

(** [wrapAroundUint16(num) = num % 0xFFFF] *)
Definition wrapAroundUint16 (num : jsnum) : jsnum := js_rem num 0xFFFF.

(** ** Instruction semantics *)

(** [getOperandAddress(mode)].  Every constructor of [AddressingMode] has a
    case, so the [default] branch that throws is unreachable. *)
Definition getOperandAddress (st : CPU) (mode : AddressingMode) : jsnum :=
  let pc := program_counter st in
  match mode with
  | Immediate => Some pc
  | ZeroPage => memoryRead st pc
  | Absolute => Some (memoryReadUint16 st pc)
  | ZeroPage_X =>
      let specifiedAddress := memoryRead st pc in
      let offset := register_x st in
      wrapAroundUint16 (js_add specifiedAddress offset)
  | ZeroPage_Y =>
      let specifiedAddress := memoryRead st pc in
      let offset := register_y st in
      wrapAroundUint16 (js_add specifiedAddress offset)
  | Absolute_X =>
      let specifiedAddress := memoryReadUint16 st pc in
      let offset := register_x st in
      wrapAroundUint16 (js_add (Some specifiedAddress) offset)
  | Absolute_Y =>
      let specifiedAddress := memoryReadUint16 st pc in
      let offset := register_y st in
      wrapAroundUint16 (js_add (Some specifiedAddress) offset)
  | Indirect_X =>
      let base := memoryRead st pc in
      let ptr := wrapAroundUint8 (js_add base (register_x st)) in
      let lo := memoryRead_js st ptr in
      let hi := memoryRead_js st (wrapAroundUint16 (js_add ptr (Some 1))) in
      Some (js_or (Some (js_shl hi 8)) lo)
  | Indirect_Y =>
      let base := memoryRead st pc in
      let lo := memoryRead_js st base in
      let hi := memoryRead_js st (wrapAroundUint16 (js_add base (Some 1))) in
      let deref_base := js_or (Some (js_shl hi 8)) lo in
      wrapAroundUint16 (js_add (Some deref_base) (register_y st))
  end.

(** [updateZeroAndNegativeFlags(result)] *)
Definition updateZeroAndNegativeFlags (st : CPU) (result : jsnum) : CPU :=
  let s1 :=
    if js_eq0 result
    then js_or (Some (status st)) (Some 0x02)
    else js_and (Some (status st)) (Some 0xFD) in
  let s2 :=
    if negb (js_and result (Some 0x80) =? 0)
    then js_or (Some s1) (Some 0x80)
    else js_and (Some s1) (Some 0x7F) in
  set_status st s2.

(** [lda(addressingMode)] *)
Definition lda (st : CPU) (addressingMode : AddressingMode) : CPU :=
  let address := getOperandAddress st addressingMode in
  let param := memoryRead_js st address in
  let st1 := set_acc st param in
  updateZeroAndNegativeFlags st1 (register_acc st1).

(** What a call may end with: a normal return, or a thrown exception.  The
    state is kept in both cases, since the object stays mutated. *)
Inductive exn :=
| Error (msg : string)
| RangeError.

Inductive outcome :=
| Normal (st : CPU)
| Thrown (e : exn) (st : CPU).

(** [this.memory.set(src, offset)] after its range check: element [i] of
    [src] is stored, as [ToUint8], at [offset + i]. *)
Fixpoint set_from (m : Z -> Z) (offset : Z) (src : list Z) : Z -> Z :=
  match src with
  | [] => m
  | v :: rest => set_from (upd m offset (toUint8 v)) (offset + 1) rest
  end.

(** [load(program)].  [Uint8Array.prototype.set] throws a [RangeError], before
    writing anything, when the source does not fit after the offset. *)
Definition load (st : CPU) (program : list Z) : outcome :=
  if 0x8000 + Z.of_nat (List.length program) >? memory_length
  then Thrown RangeError st
  else
    let st1 := set_memory st (set_from (memory st) 0x8000 program) in
    Normal (memoryWriteUint16 st1 0xFFFC 0x8000).

(** [reset()] *)
Definition reset (st : CPU) : CPU :=
  {| register_acc := Some 0; register_x := Some 0; register_y := Some 0;
     status := 0; program_counter := memoryReadUint16 st 0xFFFC;
     memory := memory st |}.

(** One iteration of the [while (true)] loop of [run()]: either the loop
    goes on with a new state, or [run] returns or throws. *)
Inductive step_result :=
| Next (st : CPU)
| Stop (o : outcome).

Definition step (st : CPU) : step_result :=
  let opCode := memoryRead st (program_counter st) in
  let st1 := set_pc st (program_counter st + 1) in
  match opCode with
  | Some op =>
      if op =? BRK then Stop (Normal st1)
      else if op =? LDA_Immediate then
        let st2 := lda st1 Immediate in
        Next (set_pc st2 (program_counter st2 + 1))
      else if op =? INX then
        let st2 := set_x st1 (wrapAroundUint8 (js_add (register_x st1) (Some 1))) in
        Next (updateZeroAndNegativeFlags st2 (register_x st2))
      else if op =? TAX then
        let st2 := set_x st1 (register_acc st1) in
        Next (updateZeroAndNegativeFlags st2 (register_x st2))
      else Stop (Thrown (Error "todo!"%string) st1)
  | None => Stop (Thrown (Error "todo!"%string) st1)
  end.

(** The loop, run for at most [fuel] iterations ([None] when the fuel runs out). *)
Fixpoint run_loop (fuel : nat) (st : CPU) : option outcome :=
  match fuel with
  | O => None
  | S fuel' =>
      match step st with
      | Next st' => run_loop fuel' st'
      | Stop o => Some o
      end
  end.

(** Every iteration moves [program_counter] forward and a read at or past
    [memory_length] gives [undefined], which throws; [memory_length + 1]
    iterations are enough (see [run_finishes]). *)
Definition run_fuel : nat := Z.to_nat (memory_length + 1).

(** [run()] *)
Definition run (st : CPU) : option outcome := run_loop run_fuel st.

(** [interpret(program)] *)
Definition interpret (st : CPU) (program : list Z) : option outcome :=
  match load st program with
  | Normal st1 => run (reset st1)
  | Thrown e st1 => Some (Thrown e st1)
  end.

(** Observations on an outcome of [interpret]. *)
Definition final_state (o : option outcome) : option CPU :=
  match o with
  | Some (Normal st) => Some st
  | _ => None
  end.

Definition zero_flag (st : CPU) : bool := Z.testbit (status st) 1.
Definition negative_flag (st : CPU) : bool := Z.testbit (status st) 7.

Definition obs (o : option outcome) : option (jsnum * jsnum * bool * bool) :=
  match final_state o with
  | Some st => Some (register_acc st, register_x st, zero_flag st, negative_flag st)
  | None => None
  end.

Definition loaded_example : CPU :=
  match load new_CPU [0xA9; 0x05; 0x00] with
  | Normal st => st
  | Thrown _ st => st
  end.

Definition inx_program_outcome : outcome :=
  match interpret new_CPU [0xA9; 0xFF; 0xAA; 0xE8; 0x00] with
  | Some o => o
  | None => Normal new_CPU
  end.

Example interpret_lda_5 :
  obs (interpret new_CPU [0xA9; 0x05; 0x00]) = Some (Some 5, Some 0, false, false).
Proof. vm_compute. reflexivity. Qed.
Example interpret_lda_0 :
  obs (interpret new_CPU [0xA9; 0x00; 0x00]) = Some (Some 0, Some 0, true, false).
Proof. vm_compute. reflexivity. Qed.
Example interpret_lda_88 :
  obs (interpret new_CPU [0xA9; 0x88; 0x00]) = Some (Some 0x88, Some 0, false, true).
Proof. vm_compute. reflexivity. Qed.
Example interpret_inx_5 :
  obs (interpret new_CPU [0xA9; 0x05; 0xAA; 0xE8; 0x00]) = Some (Some 5, Some 6, false, false).
Proof. vm_compute. reflexivity. Qed.

Example interpret_inx_ff :
  obs (interpret new_CPU [0xA9; 0xFF; 0xAA; 0xE8; 0x00]) = Some (Some 0xFF, Some 1, false, false).
Proof. vm_compute. reflexivity. Qed.

(** ** The second [CPU] class of [cpu.ts]

    The second class has the same fields, [memoryRead], [memoryReadUint16],
    [memoryWrite], [memoryWriteUint16], [getOperandAddress] and [reset] as
    the first, word for word, so those definitions are shared.  It differs
    in [updateZeroAndNegativeFlags] (masks written [~0b0000_0010] and
    [~0b1000_0000]), in [registerSet], in [lda] and [run] (which go through
    [registerSet]) and in [load] (which ends with [this.reset()]). *)

(** [~a]: ToInt32, then bitwise not. *)
Definition js_not (a : jsnum) : Z := Z.lnot (toInt32 a).

Module SecondCPU.

Definition set_y (st : CPU) (v : jsnum) : CPU :=
  {| register_acc := register_acc st; register_x := register_x st; register_y := v;
     status := status st; program_counter := program_counter st; memory := memory st |}.

(** [updateZeroAndNegativeFlags(result)] *)
Definition updateZeroAndNegativeFlags (st : CPU) (result : jsnum) : CPU :=
  let s1 :=
    if js_eq0 result
    then js_or (Some (status st)) (Some 0x02)
    else js_and (Some (status st)) (Some (js_not (Some 0x02))) in
  let s2 :=
    if negb (js_and result (Some 0x80) =? 0)
    then js_or (Some s1) (Some 0x80)
    else js_and (Some s1) (Some (js_not (Some 0x80))) in
  set_status st s2.

(** The [register] parameter of [registerSet]:
    ['register_acc' | 'register_x' | 'register_y']. *)
Inductive register := register_acc' | register_x' | register_y'.

(** [registerSet(register, value)] *)
Definition registerSet (st : CPU) (r : register) (value : jsnum) : CPU :=
  let st1 :=
    match r with
    | register_acc' => set_acc st value
    | register_x' => set_x st value
    | register_y' => set_y st value
    end in
  updateZeroAndNegativeFlags st1 value.

(** [lda(addressingMode)] *)
Definition lda (st : CPU) (addressingMode : AddressingMode) : CPU :=
  let address := getOperandAddress st addressingMode in
  let param := memoryRead_js st address in
  registerSet st register_acc' param.

(** One iteration of the [while (true)] loop of [run()]. *)
Definition step (st : CPU) : step_result :=
  let opCode := memoryRead st (program_counter st) in
  let st1 := set_pc st (program_counter st + 1) in
  match opCode with
  | Some op =>
      if op =? BRK then Stop (Normal st1)
      else if op =? LDA_Immediate then
        let st2 := lda st1 Immediate in
        Next (set_pc st2 (program_counter st2 + 1))
      else if op =? INX then
        Next (registerSet st1 register_x'
                (wrapAroundUint8 (js_add (register_x st1) (Some 1))))
      else if op =? TAX then
        Next (registerSet st1 register_x' (register_acc st1))
      else Stop (Thrown (Error "todo!"%string) st1)
  | None => Stop (Thrown (Error "todo!"%string) st1)
  end.

Fixpoint run_loop (fuel : nat) (st : CPU) : option outcome :=
  match fuel with
  | O => None
  | S fuel' =>
      match step st with
      | Next st' => run_loop fuel' st'
      | Stop o => Some o
      end
  end.

(** [run()] *)
Definition run (st : CPU) : option outcome := run_loop run_fuel st.

(** [load(program)]: [memory.set], [memoryWriteUint16(0xFFFC, 0x8000)],
    then [reset()]; a [RangeError] from [memory.set] skips the rest. *)
Definition load (st : CPU) (program : list Z) : outcome :=
  if 0x8000 + Z.of_nat (List.length program) >? memory_length
  then Thrown RangeError st
  else
    let st1 := set_memory st (set_from (memory st) 0x8000 program) in
    let st2 := memoryWriteUint16 st1 0xFFFC 0x8000 in
    Normal (reset st2).

End SecondCPU.

(** ** Bit-level facts about the JS operators *)

Lemma int32_wrap_testbit_low (z i : Z) :
  0 <= i < 32 -> Z.testbit (int32_wrap z) i = Z.testbit z i.
Proof.
  intros Hi. unfold int32_wrap.
  assert (Hm : Z.testbit (z mod 2 ^ 32) i = Z.testbit z i)
    by (apply Z.mod_pow2_bits_low; lia).
  destruct (z mod 2 ^ 32 <? 2 ^ 31); [exact Hm|].
  rewrite <- Hm.
  rewrite <- (Z.mod_pow2_bits_low (z mod 2 ^ 32 - 2 ^ 32) 32 i) by lia.
  rewrite <- (Z.mod_pow2_bits_low (z mod 2 ^ 32) 32 i) by lia.
  f_equal.
  rewrite Zminus_mod, Z_mod_same_full, Z.sub_0_r, !Zmod_mod. reflexivity.
Qed.

Lemma js_or_testbit (a b i : Z) :
  0 <= i < 32 ->
  Z.testbit (js_or (Some a) (Some b)) i = Z.testbit a i || Z.testbit b i.
Proof.
  intros Hi. unfold js_or, toInt32.
  rewrite Z.lor_spec, !int32_wrap_testbit_low by exact Hi. reflexivity.
Qed.

Lemma js_and_testbit (a b i : Z) :
  0 <= i < 32 ->
  Z.testbit (js_and (Some a) (Some b)) i = Z.testbit a i && Z.testbit b i.
Proof.
  intros Hi. unfold js_and, toInt32.
  rewrite Z.land_spec, !int32_wrap_testbit_low by exact Hi. reflexivity.
Qed.

Lemma land_128 (w : Z) :
  Z.land w 128 = if Z.testbit w 7 then 128 else 0.
Proof.
  apply Z.bits_inj'. intros n Hn.
  rewrite Z.land_spec.
  destruct (Z.eq_dec n 7) as [->|Hne].
  - destruct (Z.testbit w 7); reflexivity.
  - change 128 with (2 ^ 7).
    rewrite Z.pow2_bits_false by (intros E; apply Hne; symmetry; exact E).
    destruct (Z.testbit w 7);
      [rewrite Z.pow2_bits_false by (intros E; apply Hne; symmetry; exact E)|rewrite Z.bits_0];
      apply andb_false_r.
Qed.

(** The negative test [(result & 0b1000_0000) !== 0] reads bit 7. *)
Lemma negative_test_bit7 (r : jsnum) :
  negb (js_and r (Some 0x80) =? 0) = Z.testbit (toInt32 r) 7.
Proof.
  unfold js_and. change (toInt32 (Some 0x80)) with 128.
  rewrite land_128. destruct (Z.testbit (toInt32 r) 7); reflexivity.
Qed.

Lemma toInt32_testbit7 (v : Z) : Z.testbit (toInt32 (Some v)) 7 = Z.testbit v 7.
Proof. apply int32_wrap_testbit_low. lia. Qed.

Lemma js_eq0_some (v : Z) : js_eq0 (Some v) = (v =? 0).
Proof. reflexivity. Qed.

Lemma status_update (st : CPU) (r : jsnum) :
  status (updateZeroAndNegativeFlags st r) =
  (let s1 := if js_eq0 r then js_or (Some (status st)) (Some 0x02)
             else js_and (Some (status st)) (Some 0xFD) in
   if Z.testbit (toInt32 r) 7 then js_or (Some s1) (Some 0x80)
   else js_and (Some s1) (Some 0x7F)).
Proof.
  unfold updateZeroAndNegativeFlags. rewrite negative_test_bit7. reflexivity.
Qed.

(** The flag update changes nothing but [status]. *)
Lemma update_flags_frame (st : CPU) (r : jsnum) :
  let st' := updateZeroAndNegativeFlags st r in
  register_acc st' = register_acc st /\ register_x st' = register_x st /\
  register_y st' = register_y st /\ program_counter st' = program_counter st /\
  memory st' = memory st.
Proof. repeat split. Qed.

(** Reading a few bits of [status] after the update, as [Z.testbit] on
    constants; used by the flag claims below. *)
Ltac flag_bits :=
  repeat first
    [ rewrite js_or_testbit by lia
    | rewrite js_and_testbit by lia ];
  cbn [Z.testbit Pos.testbit]; rewrite ?orb_false_r, ?andb_true_r,
    ?orb_true_r, ?andb_false_r; try reflexivity.

(** ** Claims *)

(** C6: for every prior status and every result [v], the flag update sets
    bit 1 (Zero) iff [v = 0], sets bit 7 (Negative) iff bit 7 of [v] is 1,
    and leaves bits 0, 2, 3, 4, 5 and 6 of status as they were. *)
Theorem update_flags_bits (st : CPU) (v : Z) :
  let st' := updateZeroAndNegativeFlags st (Some v) in
  Z.testbit (status st') 1 = (v =? 0) /\
  Z.testbit (status st') 7 = Z.testbit v 7 /\
  (forall i, In i [0; 2; 3; 4; 5; 6] ->
     Z.testbit (status st') i = Z.testbit (status st) i).
Proof.
  cbv zeta. rewrite status_update, toInt32_testbit7, js_eq0_some.
  split; [|split].
  - destruct (v =? 0), (Z.testbit v 7); flag_bits.
  - destruct (v =? 0), (Z.testbit v 7); flag_bits.
  - intros i Hi.
    simpl in Hi; repeat destruct Hi as [<-|Hi]; try contradiction;
      destruct (v =? 0), (Z.testbit v 7); flag_bits.
Qed.

Lemma update_flags_zn (st : CPU) (v : Z) :
  let st' := updateZeroAndNegativeFlags st (Some v) in
  zero_flag st' = (v =? 0) /\ negative_flag st' = Z.testbit v 7.
Proof.
  cbv zeta. unfold zero_flag, negative_flag.
  rewrite status_update, toInt32_testbit7, js_eq0_some.
  split; destruct (v =? 0), (Z.testbit v 7); flag_bits.
Qed.

Lemma update_flags_exclusive (st : CPU) (r : jsnum) :
  let st' := updateZeroAndNegativeFlags st r in
  zero_flag st' && negative_flag st' = false.
Proof.
  cbv zeta. unfold zero_flag, negative_flag. rewrite status_update.
  destruct (js_eq0 r) eqn:E.
  - destruct r as [z|]; [|discriminate].
    simpl in E. apply Z.eqb_eq in E. subst z.
    change (Z.testbit (toInt32 (Some 0)) 7) with false. cbv iota.
    flag_bits.
  - destruct (Z.testbit (toInt32 r) 7); flag_bits.
Qed.

Lemma memoryRead_set_pc (st : CPU) (p a : Z) :
  memoryRead (set_pc st p) a = memoryRead st a.
Proof. reflexivity. Qed.

Lemma run_unfold (st : CPU) :
  run st =
  match step st with
  | Next st' => run_loop (Z.to_nat memory_length) st'
  | Stop o => Some o
  end.
Proof.
  unfold run, run_fuel.
  change (memory_length + 1) with (Z.succ memory_length).
  rewrite Z2Nat.inj_succ by (unfold memory_length; lia).
  reflexivity.
Qed.

Lemma lda_immediate_eq (st : CPU) (v : Z) :
  memoryRead st (program_counter st) = Some v ->
  lda st Immediate = updateZeroAndNegativeFlags (set_acc st (Some v)) (Some v).
Proof. intros H. unfold lda. cbn [getOperandAddress memoryRead_js]. rewrite H. reflexivity. Qed.

Lemma lda_pc (st : CPU) (m : AddressingMode) :
  program_counter (lda st m) = program_counter st.
Proof. reflexivity. Qed.

Lemma step_next_pc (st st' : CPU) :
  step st = Next st' ->
  0 <= program_counter st < memory_length /\
  program_counter st + 1 <= program_counter st'.
Proof.
  unfold step. destruct (memoryRead st (program_counter st)) as [op|] eqn:E;
    [|discriminate].
  unfold memoryRead in E.
  destruct ((0 <=? program_counter st) && (program_counter st <? memory_length)) eqn:B;
    [|discriminate].
  apply andb_true_iff in B as [B1 B2].
  apply Z.leb_le in B1. apply Z.ltb_lt in B2.
  destruct (op =? BRK); [discriminate|].
  destruct (op =? LDA_Immediate).
  { intros H. injection H as <-. cbn. lia. }
  destruct (op =? INX).
  { intros H. injection H as <-. cbn. lia. }
  destruct (op =? TAX); [|discriminate].
  intros H. injection H as <-. cbn. lia.
Qed.

Lemma run_loop_finishes (n : nat) (st : CPU) :
  Z.max 0 (memory_length - program_counter st) < Z.of_nat n ->
  run_loop n st <> None.
Proof.
  revert st. induction n as [|n IH]; intros st Hn.
  - simpl in Hn. lia.
  - simpl. destruct (step st) as [st'|o] eqn:Hs; [|discriminate].
    apply step_next_pc in Hs as [Hb Hp].
    apply IH. rewrite Nat2Z.inj_succ in Hn. lia.
Qed.

(** [run] never runs out of fuel from a non-negative [program_counter]:
    the [while (true)] loop always returns or throws. *)
Lemma run_finishes (st : CPU) :
  0 <= program_counter st -> run st <> None.
Proof.
  intros H. unfold run, run_fuel. apply run_loop_finishes.
  rewrite Z2Nat.id by (unfold memory_length; lia). unfold memory_length in *. lia.
Qed.

(** C10: after the flag update, and so after every instruction that lets
    the run loop go on (LDA, INX, TAX), Zero and Negative are not both set. *)
Theorem flags_not_both_set (st : CPU) (r : jsnum) :
  zero_flag (updateZeroAndNegativeFlags st r) &&
  negative_flag (updateZeroAndNegativeFlags st r) = false /\
  (forall st', step st = Next st' -> zero_flag st' && negative_flag st' = false).
Proof.
  split; [apply update_flags_exclusive|].
  intros st' Hs. unfold step in Hs.
  destruct (memoryRead st (program_counter st)) as [op|]; [|discriminate].
  destruct (op =? BRK); [discriminate|].
  destruct (op =? LDA_Immediate).
  { injection Hs as <-. apply update_flags_exclusive. }
  destruct (op =? INX).
  { injection Hs as <-. apply update_flags_exclusive. }
  destruct (op =? TAX); [|discriminate].
  injection Hs as <-. apply update_flags_exclusive.
Qed.

Lemma flags_not_both_set_witness :
  step (memoryWrite new_CPU 0 INX) =
    Next (updateZeroAndNegativeFlags
            (set_x (set_pc (memoryWrite new_CPU 0 INX) 1) (Some 1)) (Some 1)) /\
  (zero_flag (updateZeroAndNegativeFlags new_CPU (Some 0)) &&
   negative_flag (updateZeroAndNegativeFlags new_CPU (Some 0)) = false /\
   (forall st', step new_CPU = Next st' -> zero_flag st' && negative_flag st' = false)).
Proof.
  split; [reflexivity|].
  apply (flags_not_both_set new_CPU (Some 0)).
Defined.

(** C3: executing LDA immediate with operand byte [v] stores [v] in the
    accumulator; Zero is set iff [v = 0], Negative iff bit 7 of [v] is 1,
    and neither when [v <> 0] with bit 7 clear. *)
Theorem lda_immediate_flags (st : CPU) (v : Z) :
  memoryRead st (program_counter st) = Some LDA_Immediate ->
  memoryRead st (program_counter st + 1) = Some v ->
  0 <= v < 256 ->
  exists st', step st = Next st' /\
    register_acc st' = Some v /\
    zero_flag st' = (v =? 0) /\ negative_flag st' = Z.testbit v 7 /\
    (v <> 0 -> Z.testbit v 7 = false ->
       zero_flag st' = false /\ negative_flag st' = false).
Proof.
  intros Hop Hv _. unfold step. rewrite Hop.
  cbn [Z.eqb BRK LDA_Immediate Pos.eqb].
  eexists; split; [reflexivity|].
  rewrite (lda_immediate_eq _ v) by (rewrite memoryRead_set_pc; exact Hv).
  destruct (update_flags_zn (set_acc (set_pc st (program_counter st + 1)) (Some v)) v)
    as [Hz Hn].
  cbv zeta in Hz, Hn.
  unfold zero_flag, negative_flag in *. cbn [status set_pc].
  rewrite Hz, Hn. split; [reflexivity|]. split; [reflexivity|]. split; [reflexivity|].
  intros Hne H7. split; [apply Z.eqb_neq; exact Hne|exact H7].
Qed.

Lemma lda_immediate_flags_witness :
  memoryRead (memoryWrite (memoryWrite new_CPU 0 LDA_Immediate) 1 0x88) 0 = Some LDA_Immediate /\
  memoryRead (memoryWrite (memoryWrite new_CPU 0 LDA_Immediate) 1 0x88) 1 = Some 0x88 /\
  exists st', step (memoryWrite (memoryWrite new_CPU 0 LDA_Immediate) 1 0x88) = Next st' /\
    register_acc st' = Some 0x88 /\
    zero_flag st' = (0x88 =? 0) /\ negative_flag st' = Z.testbit 0x88 7 /\
    (0x88 <> 0 -> Z.testbit 0x88 7 = false ->
       zero_flag st' = false /\ negative_flag st' = false).
Proof.
  split; [reflexivity|]. split; [reflexivity|].
  apply (lda_immediate_flags (memoryWrite (memoryWrite new_CPU 0 LDA_Immediate) 1 0x88) 0x88);
    [reflexivity | reflexivity | lia].
Defined.

(** C8: when the byte at [program_counter] is [BRK], [run] returns at once;
    the only change is [program_counter] moved past the opcode. *)
Theorem run_brk_halts (st : CPU) :
  memoryRead st (program_counter st) = Some BRK ->
  run st = Some (Normal (set_pc st (program_counter st + 1))).
Proof.
  intros H. rewrite run_unfold. unfold step. rewrite H. reflexivity.
Qed.

Lemma run_brk_halts_witness :
  memoryRead new_CPU (program_counter new_CPU) = Some BRK /\
  run new_CPU = Some (Normal (set_pc new_CPU (program_counter new_CPU + 1))).
Proof.
  split; [reflexivity|]. apply run_brk_halts. reflexivity.
Defined.

(** C9: an opcode other than BRK, LDA immediate, INX and TAX makes [run]
    throw [Error('todo!')]; nothing after the opcode fetch is executed. *)
Theorem run_unknown_opcode_throws (st : CPU) (op : Z) :
  memoryRead st (program_counter st) = Some op ->
  op <> BRK -> op <> LDA_Immediate -> op <> INX -> op <> TAX ->
  run st = Some (Thrown (Error "todo!"%string) (set_pc st (program_counter st + 1))).
Proof.
  intros H H1 H2 H3 H4. rewrite run_unfold. unfold step. rewrite H.
  apply Z.eqb_neq in H1, H2, H3, H4. rewrite H1, H2, H3, H4. reflexivity.
Qed.

Lemma run_unknown_opcode_throws_witness :
  memoryRead (memoryWrite new_CPU 0 0x02) 0 = Some 0x02 /\
  run (memoryWrite new_CPU 0 0x02) =
    Some (Thrown (Error "todo!"%string) (set_pc (memoryWrite new_CPU 0 0x02) 1)).
Proof.
  split; [reflexivity|].
  apply (run_unknown_opcode_throws (memoryWrite new_CPU 0 0x02) 0x02);
    [reflexivity | discriminate | discriminate | discriminate | discriminate].
Defined.

(** C7: whatever the state before, once [load(program)] has returned,
    [reset()] zeroes the registers and status and reads [0x8000] back from
    the reset vector [0xFFFC]. *)
Theorem load_then_reset (st : CPU) (program : list Z) (st' : CPU) :
  load st program = Normal st' ->
  register_acc (reset st') = Some 0 /\ register_x (reset st') = Some 0 /\
  register_y (reset st') = Some 0 /\ status (reset st') = 0 /\
  program_counter (reset st') = 0x8000.
Proof.
  unfold load. destruct (_ >? _); [discriminate|].
  intros H. injection H as <-.
  repeat split.
Qed.

Lemma load_then_reset_witness :
  load new_CPU [0xA9; 0x05; 0x00] = Normal loaded_example /\
  (register_acc (reset loaded_example) = Some 0 /\ register_x (reset loaded_example) = Some 0 /\
   register_y (reset loaded_example) = Some 0 /\ status (reset loaded_example) = 0 /\
   program_counter (reset loaded_example) = 0x8000).
Proof.
  split; [reflexivity|].
  apply (load_then_reset new_CPU [0xA9; 0x05; 0x00] loaded_example). reflexivity.
Defined.

(** C1: INX from [register_x = 255] leaves [1] in [register_x], because
    [wrapAroundUint8] reduces modulo [0xFF]; the claim expects [0]. *)
Theorem inx_from_255 :
  step (set_x (memoryWrite new_CPU 0 INX) (Some 255)) =
    Next (updateZeroAndNegativeFlags
            (set_x (set_pc (set_x (memoryWrite new_CPU 0 INX) (Some 255)) 1) (Some 1))
            (Some 1)).
Proof. reflexivity. Qed.

(** C2: [memory] has [0xFFFF] cells, so a read at the 16-bit address
    [0xFFFF] gives [undefined], whatever the state. *)
Theorem memoryRead_ffff_undefined (st : CPU) :
  memoryRead st 0xFFFF = None.
Proof. reflexivity. Qed.

(** C4: with [0xFF] at [program_counter] and [register_x = 1], ZeroPage_X
    resolves to [256], outside the zero page. *)
Theorem zeropage_x_leaves_page :
  getOperandAddress (set_x (memoryWrite new_CPU 0 0xFF) (Some 1)) ZeroPage_X = Some 256.
Proof. reflexivity. Qed.

(** C5: with the word [0xFFFF] at [program_counter] and [register_x = 0],
    Absolute_X resolves to [0], not [0xFFFF]: [wrapAroundUint16] reduces
    modulo [0xFFFF]. *)
Theorem absolute_x_wraps_mod_ffff :
  getOperandAddress (memoryWrite (memoryWrite new_CPU 0 0xFF) 1 0xFF) Absolute_X = Some 0.
Proof. reflexivity. Qed.

(** ** Further properties of the code *)

(** A JS value that is a byte, or [undefined]/[NaN]: what a [Uint8Array]
    read can give. *)
Definition byte_or_undef (r : jsnum) : Prop :=
  match r with
  | Some z => 0 <= z < 256
  | None => True
  end.

Definition all_bytes : list Z := map Z.of_nat (seq 0 256).

Lemma in_all_bytes (z : Z) : 0 <= z < 256 -> In z all_bytes.
Proof.
  intros H. apply in_map_iff. exists (Z.to_nat z). split.
  - apply Z2Nat.id. lia.
  - apply in_seq. lia.
Qed.

Lemma int32_wrap_small (z : Z) : 0 <= z < 2 ^ 31 -> int32_wrap z = z.
Proof.
  intros H. unfold int32_wrap.
  rewrite Z.mod_small by lia.
  destruct (z <? 2 ^ 31) eqn:E; [reflexivity|]. apply Z.ltb_ge in E. lia.
Qed.

Lemma toInt32_byte (r : jsnum) :
  byte_or_undef r -> 0 <= toInt32 r < 256.
Proof.
  destruct r as [z|]; simpl; [|lia]. intros H.
  rewrite int32_wrap_small by lia. exact H.
Qed.

Lemma combine16_bytes_check :
  forallb (fun hi => forallb (fun lo =>
      Z.eqb (js_or (Some (js_shl (Some hi) 8)) (Some lo)) (hi * 256 + lo))
    all_bytes) all_bytes = true.
Proof. vm_compute. reflexivity. Qed.

(** [(hi << 8) | lo] on two bytes, either of which may be [undefined]. *)
Lemma combine16_value (hi lo : jsnum) :
  byte_or_undef hi -> byte_or_undef lo ->
  js_or (Some (js_shl hi 8)) lo = toInt32 hi * 256 + toInt32 lo.
Proof.
  intros Hh Hl.
  pose proof (toInt32_byte hi Hh) as Bh. pose proof (toInt32_byte lo Hl) as Bl.
  assert (Hs : js_shl hi 8 = js_shl (Some (toInt32 hi)) 8).
  { unfold js_shl. cbn [toInt32]. rewrite (int32_wrap_small (toInt32 hi)) by lia.
    reflexivity. }
  assert (Ho : js_or (Some (js_shl hi 8)) lo =
               js_or (Some (js_shl (Some (toInt32 hi)) 8)) (Some (toInt32 lo))).
  { rewrite Hs. unfold js_or. cbn [toInt32].
    rewrite (int32_wrap_small (toInt32 lo)) by lia. reflexivity. }
  rewrite Ho.
  pose proof combine16_bytes_check as C.
  rewrite forallb_forall in C.
  specialize (C _ (in_all_bytes _ Bh)).
  rewrite forallb_forall in C.
  specialize (C _ (in_all_bytes _ Bl)).
  apply Z.eqb_eq in C. exact C.
Qed.

Lemma memoryRead_in (st : CPU) (a : Z) :
  0 <= a < memory_length -> memoryRead st a = Some (memory st a).
Proof.
  intros H. unfold memoryRead.
  replace ((0 <=? a) && (a <? memory_length)) with true; [reflexivity|].
  symmetry. apply andb_true_iff. split; [apply Z.leb_le|apply Z.ltb_lt]; lia.
Qed.

Lemma memoryRead_out (st : CPU) (a : Z) :
  ~ (0 <= a < memory_length) -> memoryRead st a = None.
Proof.
  intros H. unfold memoryRead.
  destruct ((0 <=? a) && (a <? memory_length)) eqn:E; [|reflexivity].
  exfalso. apply andb_true_iff in E as [E1 E2].
  apply Z.leb_le in E1. apply Z.ltb_lt in E2. lia.
Qed.

(** Every cell of the array holds a byte. *)
Definition memory_bytes (st : CPU) : Prop :=
  forall a, 0 <= a < memory_length -> 0 <= memory st a < 256.

Lemma memoryRead_byte (st : CPU) (a : Z) :
  memory_bytes st -> byte_or_undef (memoryRead st a).
Proof.
  intros H. destruct (Z_lt_le_dec a 0); [|destruct (Z_lt_le_dec a memory_length)].
  - rewrite memoryRead_out by lia. exact I.
  - rewrite memoryRead_in by lia. apply H. lia.
  - rewrite memoryRead_out by lia. exact I.
Qed.

Lemma memoryRead_memoryWrite (st : CPU) (a d b : Z) :
  memoryRead (memoryWrite st a d) b =
  if (0 <=? a) && (a <? memory_length) && (b =? a)
  then Some (toUint8 d) else memoryRead st b.
Proof.
  unfold memoryWrite.
  destruct ((0 <=? a) && (a <? memory_length)) eqn:Ha; [|reflexivity].
  cbn [andb]. unfold memoryRead. cbn [memory set_memory]. unfold upd.
  destruct (b =? a) eqn:E; [|reflexivity].
  apply Z.eqb_eq in E. subst b. rewrite Ha. reflexivity.
Qed.

(** X1: a write inside the array is read back as its [ToUint8] value and
    changes no other cell; a write outside the array changes nothing. *)
Theorem memoryRead_after_write (st : CPU) (a d b : Z) :
  memoryRead (memoryWrite st a d) b =
  if (0 <=? a) && (a <? memory_length) && (b =? a)
  then Some (toUint8 d) else memoryRead st b.
Proof. apply memoryRead_memoryWrite. Qed.

Lemma js_shr_8 (d : Z) : 0 <= d < 2 ^ 31 -> js_shr (Some d) 8 = d / 256.
Proof.
  intros H. unfold js_shr. cbn [toInt32]. rewrite int32_wrap_small by exact H.
  change (Z.land 8 31) with 8. rewrite Z.shiftr_div_pow2 by lia. reflexivity.
Qed.

Lemma js_and_ff (d : Z) : 0 <= d < 2 ^ 31 -> js_and (Some d) (Some 0xFF) = d mod 256.
Proof.
  intros H. unfold js_and. cbn [toInt32]. rewrite int32_wrap_small by exact H.
  change (int32_wrap 0xFF) with (Z.ones 8).
  rewrite Z.land_ones by lia. reflexivity.
Qed.

Lemma toUint8_byte (z : Z) : 0 <= toUint8 z < 256.
Proof. unfold toUint8. apply Z.mod_pos_bound. lia. Qed.

(** X2: [memoryReadUint16] reads a little-endian word: the byte at
    [address + 1] times 256 plus the byte at [address].  At [0xFFFE] the
    high byte is read from outside the array ([undefined], which [<<]
    turns into 0), so the result is the single byte at [0xFFFE]. *)
Theorem memoryReadUint16_value (st : CPU) (a : Z) :
  memory_bytes st ->
  (0 <= a -> a + 1 < memory_length ->
   memoryReadUint16 st a = memory st (a + 1) * 256 + memory st a) /\
  memoryReadUint16 st 0xFFFE = memory st 0xFFFE.
Proof.
  intros Hm. split.
  - intros H0 H1.
    pose proof (Hm a ltac:(lia)) as Ba. pose proof (Hm (a + 1) ltac:(lia)) as Bb.
    unfold memoryReadUint16.
    rewrite combine16_value by (apply memoryRead_byte; exact Hm).
    rewrite !memoryRead_in by lia. cbn [toInt32].
    rewrite !int32_wrap_small by lia. reflexivity.
  - unfold memoryReadUint16.
    rewrite combine16_value by (apply memoryRead_byte; exact Hm).
    change (0xFFFE + 1) with 0xFFFF.
    rewrite (memoryRead_out st 0xFFFF) by (unfold memory_length; lia).
    rewrite memoryRead_in by (unfold memory_length; lia). cbn [toInt32].
    rewrite int32_wrap_small; [lia|].
    pose proof (Hm 0xFFFE ltac:(unfold memory_length; lia)). lia.
Qed.

Lemma memoryWriteUint16_cells (st : CPU) (a d b : Z) :
  0 <= d < 65536 ->
  memoryRead (memoryWriteUint16 st a d) b =
  if (0 <=? a + 1) && (a + 1 <? memory_length) && (b =? a + 1)
  then Some (d / 256)
  else if (0 <=? a) && (a <? memory_length) && (b =? a)
  then Some (d mod 256) else memoryRead st b.
Proof.
  intros Hd. unfold memoryWriteUint16.
  rewrite !memoryRead_memoryWrite.
  rewrite js_shr_8, js_and_ff by lia. unfold toUint8.
  rewrite (Z.mod_small (d / 256)) by (split; [apply Z.div_pos|apply Z.div_lt_upper_bound]; lia).
  rewrite Zmod_mod. reflexivity.
Qed.

(** X3: writing a 16-bit word with [memoryWriteUint16] and reading it back
    with [memoryReadUint16] at the same address gives the word, when both
    bytes fall inside the array; at [0xFFFE] the high byte is dropped and
    only [data mod 256] comes back. *)
Theorem memoryWriteUint16_roundtrip (st : CPU) (a d : Z) :
  0 <= d < 65536 ->
  (0 <= a -> a + 1 < memory_length ->
   memoryReadUint16 (memoryWriteUint16 st a d) a = d) /\
  memoryReadUint16 (memoryWriteUint16 st 0xFFFE d) 0xFFFE = d mod 256.
Proof.
  intros Hd.
  assert (Bh : 0 <= d / 256 < 256)
    by (split; [apply Z.div_pos|apply Z.div_lt_upper_bound]; lia).
  assert (Bl : 0 <= d mod 256 < 256) by (apply Z.mod_pos_bound; lia).
  split.
  - intros H0 H1. unfold memoryReadUint16.
    rewrite !memoryWriteUint16_cells by exact Hd.
    rewrite Z.eqb_refl.
    replace ((0 <=? a + 1) && (a + 1 <? memory_length)) with true
      by (symmetry; apply andb_true_iff; split; [apply Z.leb_le|apply Z.ltb_lt]; lia).
    replace (a =? a + 1) with false by (symmetry; apply Z.eqb_neq; lia).
    replace ((0 <=? a) && (a <? memory_length)) with true
      by (symmetry; apply andb_true_iff; split; [apply Z.leb_le|apply Z.ltb_lt]; lia).
    cbn [andb]. rewrite Z.eqb_refl.
    rewrite combine16_value by (cbn [byte_or_undef]; lia).
    cbn [toInt32]. rewrite !int32_wrap_small by lia.
    pose proof (Z.div_mod d 256 ltac:(lia)). lia.
  - unfold memoryReadUint16.
    rewrite !memoryWriteUint16_cells by exact Hd.
    cbn -[Z.div Z.modulo].
    rewrite combine16_value by (cbn [byte_or_undef]; lia).
    cbn [toInt32]. rewrite int32_wrap_small by lia. reflexivity.
Qed.

Lemma memoryWriteUint16_roundtrip_witness :
  (0 <= 0x8000 < 65536) /\
  ((0 <= 0xFFFC -> 0xFFFC + 1 < memory_length ->
    memoryReadUint16 (memoryWriteUint16 new_CPU 0xFFFC 0x8000) 0xFFFC = 0x8000) /\
   memoryReadUint16 (memoryWriteUint16 new_CPU 0xFFFE 0x8000) 0xFFFE = 0x8000 mod 256).
Proof.
  split; [lia|]. apply (memoryWriteUint16_roundtrip new_CPU 0xFFFC 0x8000). lia.
Defined.

Lemma memoryReadUint16_value_witness :
  memory_bytes new_CPU /\
  ((0 <= 0x10 -> 0x10 + 1 < memory_length ->
    memoryReadUint16 new_CPU 0x10 = memory new_CPU (0x10 + 1) * 256 + memory new_CPU 0x10) /\
   memoryReadUint16 new_CPU 0xFFFE = memory new_CPU 0xFFFE).
Proof.
  assert (H : memory_bytes new_CPU) by (intros a _; cbn; lia).
  split; [exact H|]. apply (memoryReadUint16_value new_CPU 0x10 H).
Defined.

Lemma set_from_spec (src : list Z) (m : Z -> Z) (off b : Z) :
  set_from m off src b =
  if (off <=? b) && (b <? off + Z.of_nat (List.length src))
  then toUint8 (nth (Z.to_nat (b - off)) src 0) else m b.
Proof.
  revert m off. induction src as [|v rest IH]; intros m off.
  - cbn [set_from List.length]. rewrite Z.add_0_r.
    destruct (off <=? b) eqn:E1, (b <? off) eqn:E2; try reflexivity.
    apply Z.leb_le in E1. apply Z.ltb_lt in E2. lia.
  - cbn [set_from]. rewrite IH. cbn [List.length]. rewrite Nat2Z.inj_succ.
    unfold upd.
    destruct (Z.lt_trichotomy b off) as [Hlt|[Heq|Hgt]].
    + replace (off + 1 <=? b) with false by (symmetry; apply Z.leb_gt; lia).
      replace (off <=? b) with false by (symmetry; apply Z.leb_gt; lia).
      replace (b =? off) with false by (symmetry; apply Z.eqb_neq; lia).
      reflexivity.
    + subst b.
      replace (off + 1 <=? off) with false by (symmetry; apply Z.leb_gt; lia).
      rewrite Z.leb_refl, Z.eqb_refl.
      replace (off <? off + Z.succ (Z.of_nat (List.length rest))) with true
        by (symmetry; apply Z.ltb_lt; lia).
      rewrite Z.sub_diag. reflexivity.
    + replace (off + 1 <=? b) with true by (symmetry; apply Z.leb_le; lia).
      replace (off <=? b) with true by (symmetry; apply Z.leb_le; lia).
      replace (b =? off) with false by (symmetry; apply Z.eqb_neq; lia).
      replace (b <? off + 1 + Z.of_nat (List.length rest)) with
              (b <? off + Z.succ (Z.of_nat (List.length rest)))
        by (f_equal; lia).
      cbn [andb].
      destruct (b <? off + Z.succ (Z.of_nat (List.length rest))); [|reflexivity].
      replace (Z.to_nat (b - off)) with (S (Z.to_nat (b - (off + 1)))) by lia.
      reflexivity.
Qed.

(** X4: [load(program)] throws a [RangeError] and changes nothing when the
    program is longer than [0x7FFF] bytes (it does not fit between [0x8000]
    and the end of the array).  Otherwise it changes only memory: cell
    [0x8000 + i] holds byte [i] of the program (as [ToUint8]), the reset
    vector [0xFFFC]/[0xFFFD] holds [0x00]/[0x80] (overwriting the program
    if it reaches that far), every other cell is unchanged, and registers,
    status and [program_counter] keep their values. *)
Theorem load_behaviour (st : CPU) (program : list Z) :
  (0x7FFF < Z.of_nat (List.length program) -> load st program = Thrown RangeError st) /\
  (Z.of_nat (List.length program) <= 0x7FFF ->
   exists st', load st program = Normal st' /\
     register_acc st' = register_acc st /\ register_x st' = register_x st /\
     register_y st' = register_y st /\ status st' = status st /\
     program_counter st' = program_counter st /\
     forall a, memoryRead st' a =
       if a =? 0xFFFC then Some 0x00
       else if a =? 0xFFFD then Some 0x80
       else if (0x8000 <=? a) && (a <? 0x8000 + Z.of_nat (List.length program))
       then Some (toUint8 (nth (Z.to_nat (a - 0x8000)) program 0))
       else memoryRead st a).
Proof.
  split.
  - intros H. unfold load.
    replace (0x8000 + Z.of_nat (List.length program) >? memory_length) with true
      by (symmetry; apply Z.gtb_lt; unfold memory_length; lia).
    reflexivity.
  - intros H. unfold load.
    replace (0x8000 + Z.of_nat (List.length program) >? memory_length) with false
      by (symmetry; rewrite Z.gtb_ltb; apply Z.ltb_ge; unfold memory_length; lia).
    eexists. split; [reflexivity|].
    repeat split.
    intros a. rewrite memoryWriteUint16_cells by lia.
    change ((0 <=? 0xFFFC + 1) && (0xFFFC + 1 <? memory_length)) with true.
    change ((0 <=? 0xFFFC) && (0xFFFC <? memory_length)) with true.
    change (0xFFFC + 1) with 0xFFFD. cbn [andb].
    change (0x8000 / 256) with 0x80. change (0x8000 mod 256) with 0x00.
    destruct (a =? 0xFFFC) eqn:E1.
    { apply Z.eqb_eq in E1. subst a. reflexivity. }
    destruct (a =? 0xFFFD) eqn:E2; [reflexivity|].
    unfold memoryRead. cbn [memory set_memory]. rewrite set_from_spec.
    destruct ((0x8000 <=? a) && (a <? 0x8000 + Z.of_nat (List.length program))) eqn:E3.
    + apply andb_true_iff in E3 as [E3 E4]. apply Z.leb_le in E3. apply Z.ltb_lt in E4.
      replace ((0 <=? a) && (a <? memory_length)) with true
        by (symmetry; apply andb_true_iff; split; [apply Z.leb_le|apply Z.ltb_lt];
            unfold memory_length; lia).
      reflexivity.
    + reflexivity.
Qed.

Lemma load_behaviour_witness :
  (0x7FFF < Z.of_nat (List.length [0xA9; 0x05; 0x00]) ->
   load new_CPU [0xA9; 0x05; 0x00] = Thrown RangeError new_CPU) /\
  (Z.of_nat (List.length [0xA9; 0x05; 0x00]) <= 0x7FFF ->
   exists st', load new_CPU [0xA9; 0x05; 0x00] = Normal st' /\
     register_acc st' = register_acc new_CPU /\ register_x st' = register_x new_CPU /\
     register_y st' = register_y new_CPU /\ status st' = status new_CPU /\
     program_counter st' = program_counter new_CPU /\
     forall a, memoryRead st' a =
       if a =? 0xFFFC then Some 0x00
       else if a =? 0xFFFD then Some 0x80
       else if (0x8000 <=? a) && (a <? 0x8000 + Z.of_nat (List.length [0xA9; 0x05; 0x00]))
       then Some (toUint8 (nth (Z.to_nat (a - 0x8000)) [0xA9; 0x05; 0x00] 0))
       else memoryRead new_CPU a).
Proof. apply (load_behaviour new_CPU [0xA9; 0x05; 0x00]). Defined.

(** Registers and status hold bytes (a register may also hold [undefined]
    or [NaN]), and every memory cell holds a byte. *)
Definition cpu_bytes (st : CPU) : Prop :=
  memory_bytes st /\ byte_or_undef (register_acc st) /\
  byte_or_undef (register_x st) /\ byte_or_undef (register_y st) /\
  0 <= status st < 256.

Ltac bytes_split :=
  split; [assumption|split; [assumption|split; [assumption|split; assumption]]].

Definition outcome_state (o : outcome) : CPU :=
  match o with
  | Normal st => st
  | Thrown _ st => st
  end.

Definition status_after (z n : bool) (s : Z) : Z :=
  let s1 := if z then js_or (Some s) (Some 0x02) else js_and (Some s) (Some 0xFD) in
  if n then js_or (Some s1) (Some 0x80) else js_and (Some s1) (Some 0x7F).

Lemma status_update' (st : CPU) (r : jsnum) :
  status (updateZeroAndNegativeFlags st r) =
  status_after (js_eq0 r) (Z.testbit (toInt32 r) 7) (status st).
Proof. rewrite status_update. reflexivity. Qed.

Lemma status_after_check :
  forallb (fun s => forallb (fun z => forallb (fun n =>
      (0 <=? status_after z n s) && (status_after z n s <? 256))
    [true; false]) [true; false]) all_bytes = true.
Proof. vm_compute. reflexivity. Qed.

Lemma status_after_byte (z n : bool) (s : Z) :
  0 <= s < 256 -> 0 <= status_after z n s < 256.
Proof.
  intros Hs. pose proof status_after_check as C.
  rewrite forallb_forall in C. specialize (C s (in_all_bytes s Hs)).
  rewrite forallb_forall in C. specialize (C z ltac:(destruct z; simpl; auto)).
  rewrite forallb_forall in C. specialize (C n ltac:(destruct n; simpl; auto)).
  apply andb_true_iff in C as [C1 C2].
  apply Z.leb_le in C1. apply Z.ltb_lt in C2. lia.
Qed.

Lemma update_flags_bytes (st : CPU) (r : jsnum) :
  cpu_bytes st -> cpu_bytes (updateZeroAndNegativeFlags st r).
Proof.
  intros (Hm & Ha & Hx & Hy & Hs).
  split; [exact Hm|]. split; [exact Ha|]. split; [exact Hx|]. split; [exact Hy|].
  rewrite status_update'. apply status_after_byte. exact Hs.
Qed.

Lemma memoryWrite_bytes (st : CPU) (a d : Z) :
  memory_bytes st -> memory_bytes (memoryWrite st a d).
Proof.
  intros H b Hb. unfold memoryWrite.
  destruct ((0 <=? a) && (a <? memory_length)); [|apply H; exact Hb].
  cbn [memory set_memory]. unfold upd.
  destruct (b =? a); [apply toUint8_byte|apply H; exact Hb].
Qed.

Lemma wrapAroundUint8_byte (r : jsnum) :
  byte_or_undef r -> byte_or_undef (wrapAroundUint8 (js_add r (Some 1))).
Proof.
  destruct r as [z|]; cbn; [|tauto]. intros H.
  rewrite Z.rem_mod_nonneg by lia.
  pose proof (Z.mod_pos_bound (z + 1) 255 ltac:(lia)). lia.
Qed.

Lemma step_bytes (st st' : CPU) :
  cpu_bytes st -> step st = Next st' -> cpu_bytes st'.
Proof.
  intros Hb Hs. unfold step in Hs.
  destruct (memoryRead st (program_counter st)) as [op|]; [|discriminate].
  destruct (op =? BRK); [discriminate|].
  destruct (op =? LDA_Immediate).
  { injection Hs as <-. unfold lda.
    destruct Hb as (Hm & Ha & Hx & Hy & Hst).
    assert (Hl : cpu_bytes
      (set_acc (set_pc st (program_counter st + 1))
        (memoryRead_js (set_pc st (program_counter st + 1))
           (getOperandAddress (set_pc st (program_counter st + 1)) Immediate)))).
    { split; [exact Hm|]. split; [cbn; apply memoryRead_byte; exact Hm|].
      split; [exact Hx|]. split; [exact Hy|exact Hst]. }
    pose proof (update_flags_bytes _ (register_acc (set_acc (set_pc st (program_counter st + 1))
        (memoryRead_js (set_pc st (program_counter st + 1))
           (getOperandAddress (set_pc st (program_counter st + 1)) Immediate)))) Hl) as Hu.
    destruct Hu as (? & ? & ? & ? & ?).
    bytes_split. }
  destruct (op =? INX).
  { injection Hs as <-. apply update_flags_bytes.
    destruct Hb as (Hm & Ha & Hx & Hy & Hst).
    split; [exact Hm|]. split; [exact Ha|].
    split; [apply wrapAroundUint8_byte; exact Hx|]. split; [exact Hy|exact Hst]. }
  destruct (op =? TAX); [|discriminate].
  injection Hs as <-. apply update_flags_bytes.
  destruct Hb as (Hm & Ha & Hx & Hy & Hst). bytes_split.
Qed.

Lemma step_stop_bytes (st : CPU) (o : outcome) :
  cpu_bytes st -> step st = Stop o -> cpu_bytes (outcome_state o).
Proof.
  intros Hb Hs. unfold step in Hs.
  destruct Hb as (Hm & Ha & Hx & Hy & Hst).
  destruct (memoryRead st (program_counter st)) as [op|].
  - destruct (op =? BRK); [injection Hs as <-; bytes_split|].
    destruct (op =? LDA_Immediate); [discriminate|].
    destruct (op =? INX); [discriminate|].
    destruct (op =? TAX); [discriminate|].
    injection Hs as <-. bytes_split.
  - injection Hs as <-. bytes_split.
Qed.

Lemma run_loop_bytes (n : nat) (st : CPU) (o : outcome) :
  cpu_bytes st -> run_loop n st = Some o -> cpu_bytes (outcome_state o).
Proof.
  revert st. induction n as [|n IH]; intros st Hb H; [discriminate|].
  cbn [run_loop] in H. destruct (step st) as [st'|o'] eqn:Hs.
  - exact (IH st' (step_bytes st st' Hb Hs) H).
  - injection H as <-. exact (step_stop_bytes st o' Hb Hs).
Qed.

Lemma set_from_bytes (m : Z -> Z) (off : Z) (src : list Z) (b : Z) :
  0 <= m b < 256 -> 0 <= set_from m off src b < 256.
Proof.
  intros H. rewrite set_from_spec.
  destruct (_ && _); [apply toUint8_byte|exact H].
Qed.

Lemma load_bytes (st st' : CPU) (program : list Z) :
  memory_bytes st -> load st program = Normal st' -> memory_bytes st'.
Proof.
  intros Hm H. unfold load in H.
  destruct (_ >? _); [discriminate|]. injection H as <-.
  unfold memoryWriteUint16. apply memoryWrite_bytes, memoryWrite_bytes.
  intros b Hb. cbn [memory set_memory]. apply set_from_bytes. apply Hm. exact Hb.
Qed.

Lemma run_bytes (st : CPU) (o : outcome) :
  cpu_bytes st -> run st = Some o -> cpu_bytes (outcome_state o).
Proof. unfold run. apply run_loop_bytes. Qed.

Lemma reset_bytes (st : CPU) : memory_bytes st -> cpu_bytes (reset st).
Proof. intros Hm. split; [exact Hm|]. cbn. repeat split; lia. Qed.

(** X5: from a state whose registers, status and memory hold bytes,
    [interpret(program)] ends (returning or throwing) in a state that still
    does: no register or status ever leaves [0..255] (a register may hold
    [undefined] after an out-of-range read), and memory stays bytes. *)
Theorem interpret_keeps_bytes (st : CPU) (program : list Z) (o : outcome) :
  cpu_bytes st -> interpret st program = Some o -> cpu_bytes (outcome_state o).
Proof.
  intros Hb H. unfold interpret in H.
  destruct (load st program) as [st1|e st1] eqn:Hl.
  - apply (run_bytes (reset st1)); [|exact H].
    apply reset_bytes. apply (load_bytes st st1 program); [apply Hb|exact Hl].
  - injection H as <-. unfold load in Hl.
    destruct (_ >? _); [injection Hl as _ <-; exact Hb|discriminate].
Qed.

Lemma new_CPU_bytes : cpu_bytes new_CPU.
Proof. split; [intros a _; cbn; lia|]. cbn. repeat split; lia. Qed.

Lemma interpret_keeps_bytes_witness :
  cpu_bytes new_CPU /\
  interpret new_CPU [0xA9; 0xFF; 0xAA; 0xE8; 0x00] = Some inx_program_outcome /\
  cpu_bytes (outcome_state inx_program_outcome).
Proof.
  assert (E : interpret new_CPU [0xA9; 0xFF; 0xAA; 0xE8; 0x00] = Some inx_program_outcome)
    by (vm_compute; reflexivity).
  split; [exact new_CPU_bytes|]. split; [exact E|].
  exact (interpret_keeps_bytes new_CPU _ inx_program_outcome new_CPU_bytes E).
Defined.

Lemma memoryRead_js_byte (st : CPU) (a : jsnum) :
  memory_bytes st -> byte_or_undef (memoryRead_js st a).
Proof. destruct a as [a|]; [apply memoryRead_byte|intros; exact I]. Qed.

Lemma combine16_bound (hi lo : jsnum) :
  byte_or_undef hi -> byte_or_undef lo ->
  0 <= js_or (Some (js_shl hi 8)) lo <= 0xFFFF.
Proof.
  intros Hh Hl. rewrite combine16_value by assumption.
  pose proof (toInt32_byte hi Hh). pose proof (toInt32_byte lo Hl). lia.
Qed.

Lemma memoryReadUint16_bound (st : CPU) (a : Z) :
  memory_bytes st -> 0 <= memoryReadUint16 st a <= 0xFFFF.
Proof. intros H. apply combine16_bound; apply memoryRead_byte; exact H. Qed.

Lemma wrap16_bound (r : jsnum) (a : Z) :
  (forall z, r = Some z -> 0 <= z) ->
  wrapAroundUint16 r = Some a -> 0 <= a < 0xFFFF.
Proof.
  intros Hr H. destruct r as [z|]; [|discriminate].
  injection H as <-. specialize (Hr z eq_refl).
  rewrite Z.rem_mod_nonneg by lia.
  apply Z.mod_pos_bound. lia.
Qed.

Lemma js_add_nonneg (a b : jsnum) :
  byte_or_undef a -> byte_or_undef b ->
  forall z, js_add a b = Some z -> 0 <= z.
Proof.
  intros Ha Hb z H. destruct a as [x|], b as [y|]; try discriminate.
  injection H as <-. simpl in Ha, Hb. lia.
Qed.

(** X6: in every addressing mode but Immediate (which returns
    [program_counter] itself), an address that [getOperandAddress]
    resolves to a number lies in [0..0xFFFF], as long as memory and the
    registers hold bytes. *)
Theorem getOperandAddress_range (st : CPU) (mode : AddressingMode) (a : Z) :
  cpu_bytes st -> mode <> Immediate ->
  getOperandAddress st mode = Some a -> 0 <= a <= 0xFFFF.
Proof.
  intros (Hm & Ha & Hx & Hy & Hs) Hmode H.
  destruct mode; cbn [getOperandAddress] in H.
  - contradiction.
  - pose proof (memoryRead_byte st (program_counter st) Hm) as B.
    rewrite H in B. simpl in B. lia.
  - enough (0 <= a < 0xFFFF) by lia. eapply wrap16_bound; [|exact H]; (
      apply js_add_nonneg; [apply memoryRead_byte; exact Hm|exact Hx]).
  - enough (0 <= a < 0xFFFF) by lia. eapply wrap16_bound; [|exact H]; (
      apply js_add_nonneg; [apply memoryRead_byte; exact Hm|exact Hy]).
  - injection H as <-. apply memoryReadUint16_bound. exact Hm.
  - enough (0 <= a < 0xFFFF) by lia. eapply wrap16_bound; [|exact H]; (
      intros z Hz; destruct (register_x st) as [x|]; [|discriminate];
      cbn [js_add] in Hz; injection Hz as <-; simpl in Hx;
      pose proof (memoryReadUint16_bound st (program_counter st) Hm); lia).
  - enough (0 <= a < 0xFFFF) by lia. eapply wrap16_bound; [|exact H]; (
      intros z Hz; destruct (register_y st) as [y|]; [|discriminate];
      cbn [js_add] in Hz; injection Hz as <-; simpl in Hy;
      pose proof (memoryReadUint16_bound st (program_counter st) Hm); lia).
  - injection H as <-. apply combine16_bound; apply memoryRead_js_byte; exact Hm.
  - enough (0 <= a < 0xFFFF) by lia. eapply wrap16_bound; [|exact H]; (
      intros z Hz; destruct (register_y st) as [y|]; [|discriminate];
      cbn [js_add] in Hz; injection Hz as <-; simpl in Hy;
      pose proof (combine16_bound _ _ (memoryRead_js_byte st
        (wrapAroundUint16 (js_add (memoryRead st (program_counter st)) (Some 1))) Hm)
        (memoryRead_js_byte st (memoryRead st (program_counter st)) Hm)); lia).
Qed.

Lemma getOperandAddress_range_witness :
  cpu_bytes (set_x (memoryWrite new_CPU 0 0xFF) (Some 1)) /\
  ZeroPage_X <> Immediate /\
  getOperandAddress (set_x (memoryWrite new_CPU 0 0xFF) (Some 1)) ZeroPage_X = Some 256 /\
  0 <= 256 <= 0xFFFF.
Proof.
  assert (B : cpu_bytes (set_x (memoryWrite new_CPU 0 0xFF) (Some 1))).
  { destruct new_CPU_bytes as (Hm & Ha & Hx & Hy & Hs).
    split; [apply memoryWrite_bytes; exact Hm|]. cbn. repeat split; lia. }
  split; [exact B|]. split; [discriminate|]. split; [reflexivity|].
  apply (getOperandAddress_range _ ZeroPage_X 256 B); [discriminate|reflexivity].
Defined.

(** X7: TAX copies the accumulator into [register_x] and sets Zero and
    Negative from the copied byte; the accumulator, [register_y] and memory
    are unchanged and [program_counter] moves past the one-byte opcode. *)
Theorem tax_copies (st : CPU) (v : Z) :
  memoryRead st (program_counter st) = Some TAX ->
  register_acc st = Some v ->
  exists st', step st = Next st' /\
    register_x st' = Some v /\ register_acc st' = Some v /\
    register_y st' = register_y st /\ memory st' = memory st /\
    program_counter st' = program_counter st + 1 /\
    zero_flag st' = (v =? 0) /\ negative_flag st' = Z.testbit v 7.
Proof.
  intros Hop Ha. unfold step. rewrite Hop. cbn [Z.eqb TAX BRK LDA_Immediate INX Pos.eqb].
  eexists. split; [reflexivity|].
  cbn [register_x register_acc register_y memory program_counter set_x set_pc
       updateZeroAndNegativeFlags set_status].
  rewrite Ha.
  destruct (update_flags_zn (set_x (set_pc st (program_counter st + 1)) (Some v)) v)
    as [Hz Hn].
  cbv zeta in Hz, Hn. cbn [register_x set_x] in *.
  rewrite Hz, Hn. repeat split.
Qed.

Lemma tax_copies_witness :
  memoryRead (set_acc (memoryWrite new_CPU 0 TAX) (Some 0x88)) 0 = Some TAX /\
  register_acc (set_acc (memoryWrite new_CPU 0 TAX) (Some 0x88)) = Some 0x88 /\
  exists st', step (set_acc (memoryWrite new_CPU 0 TAX) (Some 0x88)) = Next st' /\
    register_x st' = Some 0x88 /\ register_acc st' = Some 0x88 /\
    register_y st' = register_y (set_acc (memoryWrite new_CPU 0 TAX) (Some 0x88)) /\
    memory st' = memory (set_acc (memoryWrite new_CPU 0 TAX) (Some 0x88)) /\
    program_counter st' = program_counter (set_acc (memoryWrite new_CPU 0 TAX) (Some 0x88)) + 1 /\
    zero_flag st' = (0x88 =? 0) /\ negative_flag st' = Z.testbit 0x88 7.
Proof.
  split; [reflexivity|]. split; [reflexivity|].
  apply (tax_copies (set_acc (memoryWrite new_CPU 0 TAX) (Some 0x88)) 0x88);
    reflexivity.
Defined.

Lemma run_loop_to_nat_succ (st : CPU) :
  run_loop (Z.to_nat memory_length) st =
  match step st with
  | Next st' => run_loop (Z.to_nat (memory_length - 1)) st'
  | Stop o => Some o
  end.
Proof.
  replace (Z.to_nat memory_length) with (S (Z.to_nat (memory_length - 1)))
    by (unfold memory_length; lia).
  reflexivity.
Qed.

Lemma memoryRead_congr (t s : CPU) (a b : Z) :
  memory t = memory s -> a = b -> memoryRead t a = memoryRead s b.
Proof. intros Hm ->. unfold memoryRead. rewrite Hm. reflexivity. Qed.

Lemma run_lda_brk (s : CPU) (v : Z) :
  memoryRead s (program_counter s) = Some LDA_Immediate ->
  memoryRead s (program_counter s + 1) = Some v ->
  memoryRead s (program_counter s + 2) = Some BRK ->
  exists s', run s = Some (Normal s') /\
    register_acc s' = Some v /\ register_x s' = register_x s /\
    register_y s' = register_y s /\
    zero_flag s' = (v =? 0) /\ negative_flag s' = Z.testbit v 7 /\
    program_counter s' = program_counter s + 3 /\ memory s' = memory s.
Proof.
  intros H1 H2 H3. rewrite run_unfold. unfold step at 1. rewrite H1.
  cbn [Z.eqb BRK LDA_Immediate Pos.eqb].
  rewrite (lda_immediate_eq _ v) by (rewrite memoryRead_set_pc; exact H2).
  rewrite run_loop_to_nat_succ. unfold step at 1.
  match goal with |- context [memoryRead ?t (program_counter ?t)] =>
    replace (memoryRead t (program_counter t)) with (Some BRK)
      by (rewrite <- H3; apply memoryRead_congr; [reflexivity|cbn; lia]) end.
  cbn [Z.eqb BRK Pos.eqb].
  eexists. split; [reflexivity|].
  destruct (update_flags_zn (set_acc (set_pc s (program_counter s + 1)) (Some v)) v)
    as [Hz Hn].
  cbv zeta in Hz, Hn. unfold zero_flag, negative_flag in *.
  cbn [register_acc register_x register_y status program_counter memory set_pc set_acc
       updateZeroAndNegativeFlags set_status] in *.
  rewrite Hz, Hn. repeat split; lia.
Qed.

(** X8: [interpret([LDA_Immediate, v, BRK])] for any byte [v] and any prior
    state returns normally with [v] in the accumulator, [register_x] and
    [register_y] at 0, Zero set iff [v = 0], Negative set iff bit 7 of [v]
    is 1, and [program_counter] just past the BRK at [0x8003]. *)
Theorem interpret_lda_brk (st : CPU) (v : Z) :
  0 <= v < 256 ->
  exists st', interpret st [LDA_Immediate; v; BRK] = Some (Normal st') /\
    register_acc st' = Some v /\ register_x st' = Some 0 /\ register_y st' = Some 0 /\
    zero_flag st' = (v =? 0) /\ negative_flag st' = Z.testbit v 7 /\
    program_counter st' = 0x8003.
Proof.
  intros Hv. unfold interpret.
  set (s1 := memoryWriteUint16
               (set_memory st (set_from (memory st) 0x8000 [LDA_Immediate; v; BRK]))
               0xFFFC 0x8000).
  change (load st [LDA_Immediate; v; BRK]) with (Normal s1).
  cbv iota.
  assert (Hpc : program_counter (reset s1) = 0x8000) by reflexivity.
  assert (H1 : memoryRead (reset s1) (program_counter (reset s1)) = Some LDA_Immediate)
    by reflexivity.
  assert (H2 : memoryRead (reset s1) (program_counter (reset s1) + 1) = Some v).
  { transitivity (Some (toUint8 v)); [reflexivity|].
    unfold toUint8. rewrite Z.mod_small by exact Hv. reflexivity. }
  assert (H3 : memoryRead (reset s1) (program_counter (reset s1) + 2) = Some BRK)
    by reflexivity.
  destruct (run_lda_brk (reset s1) v H1 H2 H3)
    as (s' & Hr & Ha & Hx & Hy & Hz & Hn & Hp & _).
  exists s'. rewrite Hpc in Hp.
  repeat split; assumption.
Qed.

Lemma interpret_lda_brk_witness :
  0 <= 0x88 < 256 /\
  exists st', interpret new_CPU [LDA_Immediate; 0x88; BRK] = Some (Normal st') /\
    register_acc st' = Some 0x88 /\ register_x st' = Some 0 /\ register_y st' = Some 0 /\
    zero_flag st' = (0x88 =? 0) /\ negative_flag st' = Z.testbit 0x88 7 /\
    program_counter st' = 0x8003.
Proof. split; [lia|]. apply (interpret_lda_brk new_CPU 0x88). lia. Defined.

Lemma memoryWrite_same_memory (s t : CPU) (a d : Z) :
  memory s = memory t -> memory (memoryWrite s a d) = memory (memoryWrite t a d).
Proof.
  intros H. unfold memoryWrite.
  destruct ((0 <=? a) && (a <? memory_length)); cbn [memory set_memory]; rewrite H;
    reflexivity.
Qed.

Lemma memoryWriteUint16_same_memory (s t : CPU) (a d : Z) :
  memory s = memory t ->
  memory (memoryWriteUint16 s a d) = memory (memoryWriteUint16 t a d).
Proof.
  intros H. unfold memoryWriteUint16.
  apply memoryWrite_same_memory, memoryWrite_same_memory. exact H.
Qed.

Lemma reset_same_memory (s t : CPU) : memory s = memory t -> reset s = reset t.
Proof.
  intros H. unfold reset, memoryReadUint16, memoryRead. rewrite H. reflexivity.
Qed.

(** X9: the registers, status and [program_counter] a CPU holds before
    [interpret(program)] make no difference to the result: two CPUs with
    the same memory give the same outcome for a program that [load]
    accepts. *)
Theorem interpret_ignores_prior_registers (st1 st2 : CPU) (program : list Z) :
  memory st1 = memory st2 ->
  Z.of_nat (List.length program) <= 0x7FFF ->
  interpret st1 program = interpret st2 program.
Proof.
  intros Hm Hlen. unfold interpret, load.
  replace (0x8000 + Z.of_nat (List.length program) >? memory_length) with false
    by (symmetry; rewrite Z.gtb_ltb; apply Z.ltb_ge; unfold memory_length; lia).
  f_equal. apply reset_same_memory, memoryWriteUint16_same_memory.
  cbn [memory set_memory]. rewrite Hm. reflexivity.
Qed.

Lemma interpret_ignores_prior_registers_witness :
  memory new_CPU = memory (set_x (set_pc new_CPU 0x1234) (Some 7)) /\
  Z.of_nat (List.length [0xA9; 0x05; 0x00]) <= 0x7FFF /\
  interpret new_CPU [0xA9; 0x05; 0x00] =
    interpret (set_x (set_pc new_CPU 0x1234) (Some 7)) [0xA9; 0x05; 0x00].
Proof.
  split; [reflexivity|]. split; [cbn; lia|].
  apply interpret_ignores_prior_registers; [reflexivity|cbn; lia].
Defined.

(** X10: an LDA immediate opcode in the last cell of the array ([0xFFFE])
    reads its operand from [0xFFFF], outside the array: the accumulator
    gets [undefined], Zero and Negative are both cleared, and the next
    opcode fetch (at [0x10000]) throws [Error('todo!')]. *)
Theorem lda_at_top_of_memory (st : CPU) :
  program_counter st = 0xFFFE ->
  memoryRead st 0xFFFE = Some LDA_Immediate ->
  exists st', run st = Some (Thrown (Error "todo!"%string) st') /\
    register_acc st' = None /\ zero_flag st' = false /\ negative_flag st' = false /\
    program_counter st' = 0x10001 /\ memory st' = memory st.
Proof.
  intros Hpc Hop. rewrite run_unfold. unfold step at 1. rewrite Hpc, Hop.
  cbn [Z.eqb BRK LDA_Immediate Pos.eqb].
  rewrite run_loop_to_nat_succ. unfold step at 1.
  match goal with |- context [memoryRead ?t (program_counter ?t)] =>
    replace (memoryRead t (program_counter t)) with (@None Z)
      by (symmetry; apply memoryRead_out; cbn; unfold memory_length; lia) end.
  eexists. split; [reflexivity|].
  unfold lda, zero_flag, negative_flag.
  cbn [getOperandAddress memoryRead_js program_counter set_pc register_acc set_acc].
  replace (memoryRead (set_pc st (0xFFFE + 1)) (0xFFFE + 1)) with (@None Z)
    by (symmetry; apply memoryRead_out; unfold memory_length; lia).
  cbn [status set_pc program_counter memory register_acc].
  rewrite status_update. cbn [js_eq0 toInt32 set_acc set_pc status].
  rewrite Z.testbit_0_l.
  split; [reflexivity|]. split; [flag_bits|]. split; [flag_bits|].
  split; reflexivity.
Qed.

Lemma lda_at_top_of_memory_witness :
  program_counter (set_pc (memoryWrite new_CPU 0xFFFE LDA_Immediate) 0xFFFE) = 0xFFFE /\
  memoryRead (set_pc (memoryWrite new_CPU 0xFFFE LDA_Immediate) 0xFFFE) 0xFFFE =
    Some LDA_Immediate /\
  exists st', run (set_pc (memoryWrite new_CPU 0xFFFE LDA_Immediate) 0xFFFE) =
      Some (Thrown (Error "todo!"%string) st') /\
    register_acc st' = None /\ zero_flag st' = false /\ negative_flag st' = false /\
    program_counter st' = 0x10001 /\
    memory st' = memory (set_pc (memoryWrite new_CPU 0xFFFE LDA_Immediate) 0xFFFE).
Proof.
  split; [reflexivity|]. split; [reflexivity|].
  apply lda_at_top_of_memory; reflexivity.
Defined.

(** *** The second class against the first *)

Lemma second_flags_check :
  forallb (fun s => forallb (fun z : bool => forallb (fun n : bool =>
      let s1 := if z then js_or (Some s) (Some 0x02)
                else js_and (Some s) (Some (js_not (Some 0x02))) in
      let s1' := if z then js_or (Some s) (Some 0x02)
                 else js_and (Some s) (Some 0xFD) in
      Z.eqb (if n then js_or (Some s1) (Some 0x80)
             else js_and (Some s1) (Some (js_not (Some 0x80))))
            (if n then js_or (Some s1') (Some 0x80)
             else js_and (Some s1') (Some 0x7F)))
    [true; false]) [true; false]) all_bytes = true.
Proof. vm_compute. reflexivity. Qed.

Lemma second_update_flags_eq (st : CPU) (r : jsnum) :
  0 <= status st < 256 ->
  SecondCPU.updateZeroAndNegativeFlags st r = updateZeroAndNegativeFlags st r.
Proof.
  intros Hs. unfold SecondCPU.updateZeroAndNegativeFlags, updateZeroAndNegativeFlags.
  f_equal.
  generalize (negb (js_and r (Some 0x80) =? 0)) as n.
  generalize (js_eq0 r) as z. intros z n.
  pose proof second_flags_check as C.
  rewrite forallb_forall in C. specialize (C (status st) (in_all_bytes _ Hs)).
  rewrite forallb_forall in C. specialize (C z ltac:(destruct z; simpl; auto)).
  rewrite forallb_forall in C. specialize (C n ltac:(destruct n; simpl; auto)).
  apply Z.eqb_eq in C. exact C.
Qed.

Lemma second_step_eq (st : CPU) :
  0 <= status st < 256 -> SecondCPU.step st = step st.
Proof.
  intros Hs. unfold SecondCPU.step, step.
  destruct (memoryRead st (program_counter st)) as [op|]; [|reflexivity].
  destruct (op =? BRK); [reflexivity|].
  destruct (op =? LDA_Immediate).
  - unfold SecondCPU.lda, SecondCPU.registerSet, lda.
    rewrite second_update_flags_eq by (cbn; exact Hs). reflexivity.
  - destruct (op =? INX).
    + unfold SecondCPU.registerSet.
      rewrite second_update_flags_eq by (cbn; exact Hs). reflexivity.
    + destruct (op =? TAX); [|reflexivity].
      unfold SecondCPU.registerSet.
      rewrite second_update_flags_eq by (cbn; exact Hs). reflexivity.
Qed.

Lemma step_status_byte (st st' : CPU) :
  0 <= status st < 256 -> step st = Next st' -> 0 <= status st' < 256.
Proof.
  intros Hs H. unfold step in H.
  destruct (memoryRead st (program_counter st)) as [op|]; [|discriminate].
  destruct (op =? BRK); [discriminate|].
  destruct (op =? LDA_Immediate).
  - injection H as <-. unfold lda. cbn [status set_pc].
    rewrite status_update'. apply status_after_byte. exact Hs.
  - destruct (op =? INX).
    + injection H as <-. rewrite status_update'. apply status_after_byte. exact Hs.
    + destruct (op =? TAX); [|discriminate].
      injection H as <-. rewrite status_update'. apply status_after_byte. exact Hs.
Qed.

Lemma second_run_loop_eq (n : nat) (st : CPU) :
  0 <= status st < 256 -> SecondCPU.run_loop n st = run_loop n st.
Proof.
  revert st. induction n as [|n IH]; intros st Hs; [reflexivity|].
  cbn [SecondCPU.run_loop run_loop]. rewrite second_step_eq by exact Hs.
  destruct (step st) as [st'|o] eqn:E; [|reflexivity].
  apply IH. exact (step_status_byte st st' Hs E).
Qed.

(** X11: [run()] of the second class behaves as [run()] of the first
    whenever [status] holds a byte: the masks [~0b0000_0010] and
    [~0b1000_0000] clear the same flag bits as [0b1111_1101] and
    [0b0111_1111] there. *)
Theorem second_run_agrees (st : CPU) :
  0 <= status st < 256 -> SecondCPU.run st = run st.
Proof.
  intros Hs. unfold SecondCPU.run, run. apply second_run_loop_eq. exact Hs.
Qed.

Lemma second_run_agrees_witness :
  0 <= status (set_status loaded_example 0x81) < 256 /\
  SecondCPU.run (set_status loaded_example 0x81) = run (set_status loaded_example 0x81).
Proof.
  split; [cbn; lia|]. apply second_run_agrees. cbn; lia.
Defined.

(** X12: on the second class, [load(program)] followed by [run()] ends as
    [interpret(program)] of the first class: the same [RangeError] for a
    program that does not fit, otherwise the same return or exception with
    the same final state. *)
Theorem second_load_run_is_interpret (st : CPU) (program : list Z) :
  match SecondCPU.load st program with
  | Normal st1 => SecondCPU.run st1
  | Thrown e st1 => Some (Thrown e st1)
  end = interpret st program.
Proof.
  unfold SecondCPU.load, interpret, load.
  destruct (0x8000 + Z.of_nat (List.length program) >? memory_length);
    [reflexivity|].
  unfold SecondCPU.run, run. apply second_run_loop_eq. cbn. lia.
Qed.

(** X13: the [while (true)] loop of [run()] always ends, by [return] or by
    a thrown exception, from any state whose [program_counter] is not
    negative: every iteration moves [program_counter] forward, and the
    fetch at the end of the array reads [undefined], which throws. *)
Theorem run_always_ends (st : CPU) :
  0 <= program_counter st -> exists o, run st = Some o.
Proof.
  intros H. destruct (run st) as [o|] eqn:E.
  - exists o. reflexivity.
  - exfalso. exact (run_finishes st H E).
Qed.

Lemma run_always_ends_witness :
  0 <= program_counter (set_pc new_CPU 0x1234) /\
  exists o, run (set_pc new_CPU 0x1234) = Some o.
Proof.
  split; [cbn; lia|]. apply run_always_ends. cbn; lia.
Defined.
